(** * EynatForm registration API: a shallow embedding of [api/__init__.py]

    The module is a FastAPI application with two handlers that talk to a
    SQL Server database through the [pymssql] driver.  The handlers are
    embedded as computations in a state-and-exception monad over a [world]
    that holds the state behind the driver, the log and the sequence of
    driver calls made so far.  The driver itself is a parameter: every
    statement below holds for every behaviour of it. *)

From stdpp Require Import base option list strings gmap fin_maps pretty.
From Stdlib Require Import ZArith Lia Ascii.

Set Warnings "-register-all".
Local Open Scope Z_scope.
Local Open Scope string_scope.

(** ** Values *)

(** JSON values as the handlers build them and as request bodies carry
    them (dicts keep insertion order, hence an association list). *)
Inductive json : Type :=
| JNull
| JBool (b : bool)
| JInt (n : Z)
| JStr (s : string)
| JList (l : list json)
| JObj (fields : list (string * json)).

(** A value in a column of a fetched row: NULL, an integer or a string.
    The other types [pymssql] can fetch (decimals, floats, bytes, dates)
    are outside the model. *)
Inductive sqlval : Type :=
| SqlNull
| SqlInt (n : Z)
| SqlStr (s : string).

(** With [as_dict=True] a row is a dictionary from column name to value. *)
Abbreviation row := (gmap string sqlval).

Definition json_of_sqlval (v : sqlval) : json :=
  match v with
  | SqlNull => JNull
  | SqlInt n => JInt n
  | SqlStr s => JStr s
  end.

(** ** Exceptions *)

(** The subclasses of [pymssql.Error] (DB-API 2.0). *)
Inductive pymssql_error : Type :=
| InterfaceError
| DatabaseError
| DataError
| OperationalError
| IntegrityError
| InternalError
| ProgrammingError
| NotSupportedError.

(** Exceptions deriving from [Exception].  [text] is what [str(e)] gives.
    [KeyboardInterrupt], [SystemExit] and [CancelledError], which derive
    from [BaseException] only and which [except Exception] lets through,
    are outside the model. *)
Inductive exn : Type :=
| PymssqlError (cls : pymssql_error) (text : string)
| HTTPException (status_code : Z) (detail : string)
| OtherException (name text : string).

Definition str_exn (e : exn) : string :=
  match e with
  | PymssqlError _ text => text
  | HTTPException status_code detail => pretty status_code +:+ ": " +:+ detail
  | OtherException _ text => text
  end.

Inductive result (A : Type) : Type :=
| Ok (a : A)
| Raised (e : exn).
Arguments Ok {A} a.
Arguments Raised {A} e.

(** ** Logging *)

Inductive level : Type := ERROR | CRITICAL.

Definition log_record : Type := level * string.

(** ** Configuration: lines 12-22 *)

Record config : Type := Config {
  DB_SERVER : option string;
  DB_DATABASE : option string;
  DB_USER : option string;
  DB_PASSWORD : option string
}.

(** Python truthiness of what [os.environ.get] returns: [None] and the
    empty string are false. *)
Definition truthy (v : option string) : bool :=
  match v with
  | None => false
  | Some s => negb (String.eqb s "")
  end.

Definition all (l : list (option string)) : bool := forallb truthy l.

Definition environ_get (environ : gmap string string) (k : string) : option string :=
  environ !! k.

(** What importing the module does with the environment: the four
    globals, and the records it logs.  There is no [sys.exit] and no
    [raise] on the path, so the import always completes. *)
Inductive startup : Type :=
| Running (cfg : config) (logged : list log_record)
| Exited (code : Z).

Definition load_config (environ : gmap string string) : startup :=
  let server := environ_get environ "DB_SERVER" in
  let database := environ_get environ "DB_DATABASE" in
  let user := environ_get environ "DB_USER" in
  let password := environ_get environ "DB_PASSWORD" in
  let cfg := Config server database user password in
  if negb (all [server; database; user; password])
  then Running cfg [(CRITICAL, "Database environment variables are not set. Exiting.")]
  else Running cfg [].

(** ** The driver *)

(** How a call into the driver ended. *)
Inductive outcome : Type :=
| Returned
| Raise (e : exn).

(** One call into the driver, with how it ended. *)
Inductive call : Type :=
| CConnect (cfg : config) (as_dict : bool) (o : outcome)
| CCursor (o : outcome)
| CCallproc (procname : string) (params : list sqlval) (o : outcome)
| CCommit (o : outcome)
| CExecute (query : string) (params : list sqlval) (o : outcome)
| CFetchall (o : outcome)
| CCursorClose
| CConnClose.

Definition outcome_of_call (c : call) : outcome :=
  match c with
  | CConnect _ _ o | CCursor o | CCallproc _ _ o | CCommit o
  | CExecute _ _ o | CFetchall o => o
  | CCursorClose | CConnClose => Returned
  end.

(** The behaviour of [pymssql] and of the server behind it.  [server] is
    everything the driver's answers may depend on (network, session,
    tables).  Each operation may raise; the two [close] operations, which
    the [with] statements run on exit, release the handle and return. *)
Record driver (server connection cursor : Type) : Type := Driver {
  connect : config → bool → server → result connection * server;
  conn_cursor : connection → server → result cursor * server;
  callproc : cursor → string → list sqlval → server → result (list sqlval) * server;
  commit : connection → server → result () * server;
  execute : cursor → string → list sqlval → server → result () * server;
  fetchall : cursor → server → result (list row) * server;
  cursor_close : cursor → server → server;
  conn_close : connection → server → server
}.
Arguments connect {server connection cursor} d.
Arguments conn_cursor {server connection cursor} d.
Arguments callproc {server connection cursor} d.
Arguments commit {server connection cursor} d.
Arguments execute {server connection cursor} d.
Arguments fetchall {server connection cursor} d.
Arguments cursor_close {server connection cursor} d.
Arguments conn_close {server connection cursor} d.

Definition outcome_of {A : Type} (r : result A) : outcome :=
  match r with
  | Ok _ => Returned
  | Raised e => Raise e
  end.

(** ** The world and the monad of handler code *)

Record world (server : Type) : Type := World {
  srv : server;
  logged : list log_record;
  calls : list call
}.
Arguments World {server} srv logged calls.
Arguments srv {server} w.
Arguments logged {server} w.
Arguments calls {server} w.

(** A request starts with nothing logged and no call made. *)
Definition fresh {server : Type} (s : server) : world server := World s [] [].

Definition io (server A : Type) : Type := world server → result A * world server.

Definition ret {server A : Type} (a : A) : io server A := λ w, (Ok a, w).

Definition raise {server A : Type} (e : exn) : io server A := λ w, (Raised e, w).

Definition bind {server A B : Type} (m : io server A) (k : A → io server B) : io server B :=
  λ w, match m w with
       | (Ok a, w') => k a w'
       | (Raised e, w') => (Raised e, w')
       end.

Declare Scope io_scope.
Delimit Scope io_scope with io.
Notation "x <- m ;; k" := (bind m (λ x, k))
  (at level 100, m at next level, right associativity) : io_scope.
Notation "m ;; k" := (bind m (λ _, k))
  (at level 100, right associativity) : io_scope.
Local Open Scope io_scope.

(** [with acquire as r: body]: [release] runs on the way out whether the
    body returned or raised; what the body did is passed on. *)
Definition with_ {server R A : Type} (acquire : io server R)
    (release : R → world server → world server) (body : R → io server A) : io server A :=
  λ w, match acquire w with
       | (Ok r, w1) => let '(res, w2) := body r w1 in (res, release r w2)
       | (Raised e, w1) => (Raised e, w1)
       end.

(** [try: body except E1 as e: h1 except E2 as e: h2]: the first clause
    whose class matches handles the exception; an exception raised inside
    a clause is not seen by the later clauses. *)
Fixpoint select_handler {server A : Type}
    (clauses : list ((exn → bool) * (exn → io server A))) (e : exn) : option (io server A) :=
  match clauses with
  | [] => None
  | (matches, handler) :: rest =>
      if matches e then Some (handler e) else select_handler rest e
  end.

Definition try_except {server A : Type} (body : io server A)
    (clauses : list ((exn → bool) * (exn → io server A))) : io server A :=
  λ w, match body w with
       | (Ok a, w') => (Ok a, w')
       | (Raised e, w') =>
           match select_handler clauses e with
           | Some handler => handler w'
           | None => (Raised e, w')
           end
       end.

(** [except pymssql.Error] and [except Exception]. *)
Definition is_pymssql_Error (e : exn) : bool :=
  match e with
  | PymssqlError _ _ => true
  | _ => false
  end.

Definition is_Exception (e : exn) : bool := true.

Definition logging_error {server : Type} (msg : string) : io server () :=
  λ w, (Ok (), World (srv w) (logged w ++ [(ERROR, msg)]) (calls w)).

(** [for_each f l] is the list comprehension [[f x for x in l]]. *)
Fixpoint for_each {server A B : Type} (f : A → io server B) (l : list A) : io server (list B) :=
  match l with
  | [] => ret []
  | x :: rest => y <- f x ;; ys <- for_each f rest ;; ret (y :: ys)
  end.

(** [row[key]], which raises [KeyError(key)] when the key is missing. *)
Definition KeyError (key : string) : exn := OtherException "KeyError" ("'" +:+ key +:+ "'").

Definition getitem {server : Type} (r : row) (key : string) : io server sqlval :=
  match r !! key with
  | Some v => ret v
  | None => raise (KeyError key)
  end.

(** [str(n)] for an [int]. *)
Definition str_int (n : Z) : string := pretty n.

(** ** The request model: lines 43-45 *)

Record Registration : Type := mkRegistration {
  email : string;
  choice : Z
}.

(** [pydantic]'s validators for a [str] field and an [int] field, and the
    error report it produces for a body that does not validate. *)
Record validators : Type := Validators {
  str_field : json → option string;
  int_field : json → option Z;
  error_detail : json → json
}.

(** [body[key]] of a parsed JSON object; of a repeated key the last
    occurrence counts. *)
Fixpoint obj_get (key : string) (fields : list (string * json)) : option json :=
  match fields with
  | [] => None
  | (k, v) :: rest =>
      match obj_get key rest with
      | Some v' => Some v'
      | None => if String.eqb key k then Some v else None
      end
  end.

Record response : Type := Response {
  status : Z;
  content : json
}.

Section Handlers.
Context {server connection cursor : Type}.
Variable drv : driver server connection cursor.
(** The module globals set at import. *)
Variable cfg : config.

(** Driver calls, each recorded with its outcome. *)
Definition invoke {A : Type} (op : server → result A * server) (ev : outcome → call) : io server A :=
  λ w, let '(r, s) := op (srv w) in
       (r, World s (logged w) (calls w ++ [ev (outcome_of r)])).

Definition release (op : server → server) (ev : call) : world server → world server :=
  λ w, World (op (srv w)) (logged w) (calls w ++ [ev]).

Definition pymssql_connect (as_dict : bool) : io server connection :=
  invoke (connect drv cfg as_dict) (CConnect cfg as_dict).

Definition conn_exit (conn : connection) : world server → world server :=
  release (conn_close drv conn) CConnClose.

Definition cursor_of (conn : connection) : io server cursor :=
  invoke (conn_cursor drv conn) CCursor.

Definition cursor_exit (cur : cursor) : world server → world server :=
  release (cursor_close drv cur) CCursorClose.

Definition cursor_callproc (cur : cursor) (procname : string) (params : list sqlval)
    : io server (list sqlval) :=
  invoke (callproc drv cur procname params) (CCallproc procname params).

Definition conn_commit (conn : connection) : io server () :=
  invoke (commit drv conn) CCommit.

Definition cursor_execute (cur : cursor) (query : string) (params : list sqlval) : io server () :=
  invoke (execute drv cur query params) (CExecute query params).

Definition cursor_fetchall (cur : cursor) : io server (list row) :=
  invoke (fetchall drv cur) CFetchall.

(** *** [register_user]: lines 48-66 *)

Definition register_body (registration : Registration) : io server json :=
  with_ (pymssql_connect false) conn_exit (λ conn,
    with_ (cursor_of conn) cursor_exit (λ cur,
      let sql_proc_name := "sp_RegisterUser_EynatForm" in
      cursor_callproc cur sql_proc_name
        [SqlStr (email registration); SqlInt (choice registration)] ;;
      conn_commit conn)) ;;
  ret (JObj [("status", JStr "success");
             ("message", JStr ("Registered for option " +:+ str_int (choice registration)))]).

Definition register_user (registration : Registration) : io server json :=
  try_except (register_body registration)
    [(is_pymssql_Error, λ db_err,
        logging_error ("Database error during registration: " +:+ str_exn db_err) ;;
        raise (HTTPException 500 "Database operation failed."));
     (is_Exception, λ e,
        logging_error ("An unexpected error occurred: " +:+ str_exn e) ;;
        raise (HTTPException 500 "An unexpected server error occurred."))].

(** *** [get_user_registrations]: lines 69-89 *)

Definition get_body (user_email : string) : io server json :=
  registrations <-
    with_ (pymssql_connect true) conn_exit (λ conn,
      with_ (cursor_of conn) cursor_exit (λ cur,
        let sql_query := "SELECT RegNumber FROM EYNATFORM_ALL WHERE email = %s" in
        cursor_execute cur sql_query [SqlStr user_email] ;;
        rows <- cursor_fetchall cur ;;
        for_each (λ r, getitem r "RegNumber") rows)) ;;
  ret (JObj [("email", JStr user_email);
             ("registrations", JList (json_of_sqlval <$> registrations))]).

Definition get_user_registrations (user_email : string) : io server json :=
  try_except (get_body user_email)
    [(is_pymssql_Error, λ db_err,
        logging_error ("Database error fetching registrations: " +:+ str_exn db_err) ;;
        raise (HTTPException 500 "Could not retrieve registration data."));
     (is_Exception, λ e,
        logging_error ("An unexpected error occurred: " +:+ str_exn e) ;;
        raise (HTTPException 500 "An unexpected server error occurred."))].

(** *** What the framework makes of a handler

    FastAPI serialises the returned dict with status 200, turns an
    [HTTPException] into its status code and a [detail] body, and answers
    500 to any other exception that leaves the handler. *)

Definition response_of (r : result json) : response :=
  match r with
  | Ok payload => Response 200 payload
  | Raised (HTTPException code detail) => Response code (JObj [("detail", JStr detail)])
  | Raised _ => Response 500 (JStr "Internal Server Error")
  end.

Definition respond (handler : io server json) : world server → response * world server :=
  λ w, let '(r, w') := handler w in (response_of r, w').

(** The body of [POST /register] is validated against [Registration]
    first; the handler runs only on a body that validates. *)
Variable pydantic : validators.

Definition validate_Registration (body : json) : option Registration :=
  match body with
  | JObj fields =>
      e ← obj_get "email" fields ≫= str_field pydantic;
      c ← obj_get "choice" fields ≫= int_field pydantic;
      Some (mkRegistration e c)
  | _ => None
  end.

Definition post_register (body : json) : world server → response * world server :=
  match validate_Registration body with
  | Some registration => respond (register_user registration)
  | None => λ w, (Response 422 (JObj [("detail", error_detail pydantic body)]), w)
  end.

Definition get_registrations (user_email : string) : world server → response * world server :=
  respond (get_user_registrations user_email).

End Handlers.

(** ** How a request runs

    The two handlers, case by case on what the driver does: which calls
    are made, what is logged and what the handler returns or raises. *)
Section Runs.
Context {server connection cursor : Type}.
Variable drv : driver server connection cursor.
Variable cfg : config.

Definition register_detail (e : exn) : string :=
  if is_pymssql_Error e then "Database operation failed."
  else "An unexpected server error occurred.".

Definition register_log (e : exn) : log_record :=
  (ERROR, (if is_pymssql_Error e then "Database error during registration: "
           else "An unexpected error occurred: ") +:+ str_exn e).

Definition register_payload (registration : Registration) : json :=
  JObj [("status", JStr "success");
        ("message", JStr ("Registered for option " +:+ str_int (choice registration)))].

Definition register_args (registration : Registration) : list sqlval :=
  [SqlStr (email registration); SqlInt (choice registration)].

Inductive register_run (registration : Registration) (s : server)
    : result json → world server → Prop :=
| register_connect_raised e s1 :
    connect drv cfg false s = (Raised e, s1) →
    register_run registration s
      (Raised (HTTPException 500 (register_detail e)))
      (World s1 [register_log e] [CConnect cfg false (Raise e)])
| register_cursor_raised conn s1 e s2 :
    connect drv cfg false s = (Ok conn, s1) →
    conn_cursor drv conn s1 = (Raised e, s2) →
    register_run registration s
      (Raised (HTTPException 500 (register_detail e)))
      (World (conn_close drv conn s2) [register_log e]
         [CConnect cfg false Returned; CCursor (Raise e); CConnClose])
| register_callproc_raised conn s1 cur s2 e s3 :
    connect drv cfg false s = (Ok conn, s1) →
    conn_cursor drv conn s1 = (Ok cur, s2) →
    callproc drv cur "sp_RegisterUser_EynatForm" (register_args registration) s2
      = (Raised e, s3) →
    register_run registration s
      (Raised (HTTPException 500 (register_detail e)))
      (World (conn_close drv conn (cursor_close drv cur s3)) [register_log e]
         [CConnect cfg false Returned; CCursor Returned;
          CCallproc "sp_RegisterUser_EynatForm" (register_args registration) (Raise e);
          CCursorClose; CConnClose])
| register_commit_raised conn s1 cur s2 out s3 e s4 :
    connect drv cfg false s = (Ok conn, s1) →
    conn_cursor drv conn s1 = (Ok cur, s2) →
    callproc drv cur "sp_RegisterUser_EynatForm" (register_args registration) s2
      = (Ok out, s3) →
    commit drv conn s3 = (Raised e, s4) →
    register_run registration s
      (Raised (HTTPException 500 (register_detail e)))
      (World (conn_close drv conn (cursor_close drv cur s4)) [register_log e]
         [CConnect cfg false Returned; CCursor Returned;
          CCallproc "sp_RegisterUser_EynatForm" (register_args registration) Returned;
          CCommit (Raise e); CCursorClose; CConnClose])
| register_committed conn s1 cur s2 out s3 s4 :
    connect drv cfg false s = (Ok conn, s1) →
    conn_cursor drv conn s1 = (Ok cur, s2) →
    callproc drv cur "sp_RegisterUser_EynatForm" (register_args registration) s2
      = (Ok out, s3) →
    commit drv conn s3 = (Ok (), s4) →
    register_run registration s
      (Ok (register_payload registration))
      (World (conn_close drv conn (cursor_close drv cur s4)) []
         [CConnect cfg false Returned; CCursor Returned;
          CCallproc "sp_RegisterUser_EynatForm" (register_args registration) Returned;
          CCommit Returned; CCursorClose; CConnClose]).

(** The same for [get_user_registrations]. *)

Definition get_detail (e : exn) : string :=
  if is_pymssql_Error e then "Could not retrieve registration data."
  else "An unexpected server error occurred.".

Definition get_log (e : exn) : log_record :=
  (ERROR, (if is_pymssql_Error e then "Database error fetching registrations: "
           else "An unexpected error occurred: ") +:+ str_exn e).

Definition get_payload (user_email : string) (registrations : list sqlval) : json :=
  JObj [("email", JStr user_email);
        ("registrations", JList (json_of_sqlval <$> registrations))].

Definition sql_query : string := "SELECT RegNumber FROM EYNATFORM_ALL WHERE email = %s".

Inductive get_run (user_email : string) (s : server) : result json → world server → Prop :=
| get_connect_raised e s1 :
    connect drv cfg true s = (Raised e, s1) →
    get_run user_email s
      (Raised (HTTPException 500 (get_detail e)))
      (World s1 [get_log e] [CConnect cfg true (Raise e)])
| get_cursor_raised conn s1 e s2 :
    connect drv cfg true s = (Ok conn, s1) →
    conn_cursor drv conn s1 = (Raised e, s2) →
    get_run user_email s
      (Raised (HTTPException 500 (get_detail e)))
      (World (conn_close drv conn s2) [get_log e]
         [CConnect cfg true Returned; CCursor (Raise e); CConnClose])
| get_execute_raised conn s1 cur s2 e s3 :
    connect drv cfg true s = (Ok conn, s1) →
    conn_cursor drv conn s1 = (Ok cur, s2) →
    execute drv cur sql_query [SqlStr user_email] s2 = (Raised e, s3) →
    get_run user_email s
      (Raised (HTTPException 500 (get_detail e)))
      (World (conn_close drv conn (cursor_close drv cur s3)) [get_log e]
         [CConnect cfg true Returned; CCursor Returned;
          CExecute sql_query [SqlStr user_email] (Raise e); CCursorClose; CConnClose])
| get_fetchall_raised conn s1 cur s2 s3 e s4 :
    connect drv cfg true s = (Ok conn, s1) →
    conn_cursor drv conn s1 = (Ok cur, s2) →
    execute drv cur sql_query [SqlStr user_email] s2 = (Ok (), s3) →
    fetchall drv cur s3 = (Raised e, s4) →
    get_run user_email s
      (Raised (HTTPException 500 (get_detail e)))
      (World (conn_close drv conn (cursor_close drv cur s4)) [get_log e]
         [CConnect cfg true Returned; CCursor Returned;
          CExecute sql_query [SqlStr user_email] Returned; CFetchall (Raise e);
          CCursorClose; CConnClose])
| get_column_missing conn s1 cur s2 s3 rows s4 :
    connect drv cfg true s = (Ok conn, s1) →
    conn_cursor drv conn s1 = (Ok cur, s2) →
    execute drv cur sql_query [SqlStr user_email] s2 = (Ok (), s3) →
    fetchall drv cur s3 = (Ok rows, s4) →
    mapM (λ r : row, r !! "RegNumber") rows = None →
    get_run user_email s
      (Raised (HTTPException 500 (get_detail (KeyError "RegNumber"))))
      (World (conn_close drv conn (cursor_close drv cur s4)) [get_log (KeyError "RegNumber")]
         [CConnect cfg true Returned; CCursor Returned;
          CExecute sql_query [SqlStr user_email] Returned; CFetchall Returned;
          CCursorClose; CConnClose])
| get_fetched conn s1 cur s2 s3 rows s4 registrations :
    connect drv cfg true s = (Ok conn, s1) →
    conn_cursor drv conn s1 = (Ok cur, s2) →
    execute drv cur sql_query [SqlStr user_email] s2 = (Ok (), s3) →
    fetchall drv cur s3 = (Ok rows, s4) →
    mapM (λ r : row, r !! "RegNumber") rows = Some registrations →
    get_run user_email s
      (Ok (get_payload user_email registrations))
      (World (conn_close drv conn (cursor_close drv cur s4)) []
         [CConnect cfg true Returned; CCursor Returned;
          CExecute sql_query [SqlStr user_email] Returned; CFetchall Returned;
          CCursorClose; CConnClose]).

End Runs.

(** ** Vocabulary of the statements *)

(** The [commit] calls in a sequence of driver calls, with how each ended. *)
Definition commit_calls (tr : list call) : list outcome :=
  omap (λ c, match c with CCommit o => Some o | _ => None end) tr.

(** A driver is transactional for a view [durable] of the server when
    only a [commit] that returns can change that view. *)
Record transactional {server connection cursor D : Type}
    (drv : driver server connection cursor) (durable : server → D) : Prop := {
  connect_durable cfg as_dict s : durable (connect drv cfg as_dict s).2 = durable s;
  conn_cursor_durable conn s : durable (conn_cursor drv conn s).2 = durable s;
  callproc_durable cur procname params s :
    durable (callproc drv cur procname params s).2 = durable s;
  commit_raised_durable conn s e s' :
    commit drv conn s = (Raised e, s') → durable s' = durable s;
  cursor_close_durable cur s : durable (cursor_close drv cur s) = durable s;
  conn_close_durable conn s : durable (conn_close drv conn s) = durable s
}.

(** A request body that [Registration] does not accept, for the given
    validators: which values a field validator turns down is theirs to say. *)
Inductive malformed (pydantic : validators) : json → Prop :=
| not_an_object body :
    (∀ fields, body ≠ JObj fields) → malformed pydantic body
| missing_email fields :
    obj_get "email" fields = None → malformed pydantic (JObj fields)
| missing_choice fields :
    obj_get "choice" fields = None → malformed pydantic (JObj fields)
| email_wrong_type fields v :
    obj_get "email" fields = Some v → str_field pydantic v = None →
    malformed pydantic (JObj fields)
| choice_wrong_type fields v :
    obj_get "choice" fields = Some v → int_field pydantic v = None →
    malformed pydantic (JObj fields).

(** [after w0 w'] is the world [w'] reached from a fresh world, seen from
    a request that started in [w0]: the log and the call sequence of [w0]
    come first. *)
Definition after {server : Type} (w0 w' : world server) : world server :=
  World (srv w') (logged w0 ++ logged w') (calls w0 ++ calls w').

(** A computation is [local] when it neither reads the log nor the call
    sequence: from any world it does what it does from a fresh one. *)
Definition local {server A : Type} (m : io server A) : Prop :=
  ∀ w, m w = ((m (fresh (srv w))).1, after w (m (fresh (srv w))).2).

(** Some driver call of the sequence raised [e]. *)
Definition raised_in (e : exn) (tr : list call) : Prop :=
  ∃ c, c ∈ tr ∧ outcome_of_call c = Raise e.







(** Reading a decimal numeral: an optional sign, then one or more digits. *)
Definition digit_of (a : Ascii.ascii) : option Z :=
  let n := Z.of_N (Ascii.N_of_ascii a) - 48 in
  if ((0 <=? n)%Z && (n <=? 9)%Z)%bool then Some n else None.

Fixpoint parse_digits (acc : Z) (s : string) : option Z :=
  match s with
  | EmptyString => Some acc
  | String a rest =>
      match digit_of a with
      | Some d => parse_digits (10 * acc + d) rest
      | None => None
      end
  end.

Definition parse_int (s : string) : option Z :=
  match s with
  | EmptyString => None
  | String "-"%char (String a rest) => Z.opp <$> parse_digits 0 (String a rest)
  | String "+"%char (String a rest) => parse_digits 0 (String a rest)
  | _ => parse_digits 0 s
  end.

(** The handles a request holds: a connection, and a cursor on it. *)
Inductive handle : Type := HConn | HCur.

Definition handle_eqb (a b : handle) : bool :=
  match a, b with
  | HConn, HConn | HCur, HCur => true
  | _, _ => false
  end.

Definition holds (h : handle) (open : list handle) : bool := existsb (handle_eqb h) open.

(** [scoped open tr]: starting with the handles [open] (innermost first), the
    calls [tr] use a cursor only while one is open and the connection only
    while it is open, close handles innermost first, and leave none open. *)
Fixpoint scoped (open : list handle) (tr : list call) : bool :=
  match tr with
  | [] => match open with [] => true | _ :: _ => false end
  | CConnect _ _ Returned :: rest => scoped (HConn :: open) rest
  | CConnect _ _ (Raise _) :: rest => scoped open rest
  | CCursor Returned :: rest => holds HConn open && scoped (HCur :: open) rest
  | CCursor (Raise _) :: rest => holds HConn open && scoped open rest
  | (CCallproc _ _ _ | CExecute _ _ _ | CFetchall _) :: rest =>
      holds HCur open && scoped open rest
  | CCommit _ :: rest => holds HConn open && scoped open rest
  | CCursorClose :: rest =>
      match open with
      | HCur :: open' => scoped open' rest
      | _ => false
      end
  | CConnClose :: rest =>
      match open with
      | HConn :: open' => scoped open' rest
      | _ => false
      end
  end.

Definition is_close (c : call) : bool :=
  match c with
  | CCursorClose | CConnClose => true
  | _ => false
  end.

(** [stops_at_failure tr]: once a call of [tr] has raised, only closes follow. *)
Fixpoint stops_at_failure (tr : list call) : bool :=
  match tr with
  | [] => true
  | c :: rest =>
      match outcome_of_call c with
      | Returned => stops_at_failure rest
      | Raise _ => forallb is_close rest
      end
  end.

(** The driver operation a call invokes. *)
Definition call_name (c : call) : string :=
  match c with
  | CConnect _ _ _ => "connect"
  | CCursor _ => "cursor"
  | CCallproc _ _ _ => "callproc"
  | CCommit _ => "commit"
  | CExecute _ _ _ => "execute"
  | CFetchall _ => "fetchall"
  | CCursorClose => "cursor.close"
  | CConnClose => "close"
  end.

(** Running a query and fetching its rows do not change the view [durable]. *)
Record reads_only {server connection cursor D : Type}
    (drv : driver server connection cursor) (durable : server → D) : Prop := {
  execute_durable cur query params s :
    durable (execute drv cur query params s).2 = durable s;
  fetchall_durable cur s : durable (fetchall drv cur s).2 = durable s
}.

(** ** An in-memory driver

  A small server with one table, an open transaction and planned
  faults; it serves as a concrete instance of [driver]. *)
Module InMemory.

Inductive op : Type := OpConnect | OpCursor | OpCallproc | OpCommit | OpExecute | OpFetchall.

Definition op_eqb (a b : op) : bool :=
  match a, b with
  | OpConnect, OpConnect | OpCursor, OpCursor | OpCallproc, OpCallproc
  | OpCommit, OpCommit | OpExecute, OpExecute | OpFetchall, OpFetchall => true
  | _, _ => false
  end.

Record server : Type := Server {
  table : list (string * Z);      (* committed rows: email, RegNumber *)
  pending : list (string * Z);    (* rows written by the open transaction *)
  result_set : list row;          (* what the last [execute] selected *)
  faults : list (op * exn)        (* which operations raise, and what *)
}.

Fixpoint fault (o : op) (plan : list (op * exn)) : option exn :=
  match plan with
  | [] => None
  | (o', e) :: rest => if op_eqb o o' then Some e else fault o rest
  end.

Definition attempt {A : Type} (o : op) (s : server) (k : result A * server) : result A * server :=
  match fault o (faults s) with
  | Some e => (Raised e, s)
  | None => k
  end.

Definition select (user_email : string) (rows : list (string * Z)) : list row :=
  (λ r, {[ "RegNumber" := SqlInt r.2 ]}) <$> filter (λ r, r.1 = user_email) rows.

Definition mem_driver : driver server () () := {|
  connect := λ _ _ s, attempt OpConnect s (Ok (), s);
  conn_cursor := λ _ s, attempt OpCursor s (Ok (), s);
  callproc := λ _ _ params s,
    attempt OpCallproc s
      match params with
      | [SqlStr e; SqlInt c] =>
          (Ok params, Server (table s) (pending s ++ [(e, c)]) (result_set s) (faults s))
      | _ => (Raised (PymssqlError ProgrammingError "wrong arguments"), s)
      end;
  commit := λ _ s,
    attempt OpCommit s (Ok (), Server (table s ++ pending s) [] (result_set s) (faults s));
  execute := λ _ _ params s,
    attempt OpExecute s
      match params with
      | [SqlStr e] =>
          (Ok (), Server (table s) (pending s) (select e (table s ++ pending s)) (faults s))
      | _ => (Raised (PymssqlError ProgrammingError "wrong arguments"), s)
      end;
  fetchall := λ _ s, attempt OpFetchall s (Ok (result_set s), s);
  cursor_close := λ _ s, Server (table s) (pending s) [] (faults s);
  conn_close := λ _ s, Server (table s) [] (result_set s) (faults s)
|}.

Definition strict : validators := {|
  str_field := λ j, match j with JStr s => Some s | _ => None end;
  int_field := λ j, match j with JInt n => Some n | _ => None end;
  error_detail := λ _, JList []
|}.

(** Validators that coerce as [pydantic] does by default: an [int] field
    takes an integer, a boolean (as 0 or 1) and a string that is a decimal
    numeral; a [str] field takes a string.  (Of the strings [pydantic]
    reads as integers only the plain numerals are modelled.) *)
Definition coercing : validators := {|
  str_field := λ j, match j with JStr s => Some s | _ => None end;
  int_field := λ j,
    match j with
    | JInt n => Some n
    | JBool b => Some (if b then 1 else 0)
    | JStr s => parse_int s
    | _ => None
    end;
  error_detail := λ _, JList []
|}.

Definition env_cfg : config :=
  Config (Some "db.example.net") (Some "forms") (Some "api") (Some "secret").

Definition healthy : server := Server [("a@b.com", 1); ("c@d.com", 4); ("a@b.com", 7)] [] [] [].

Definition unreachable : server :=
  Server [("a@b.com", 1)] [] [] [(OpConnect, PymssqlError OperationalError "(20009, b'Unable to connect: db.example.net')")].

Definition repeated : server :=
  Server [("a@b.com", 7); ("c@d.com", 4); ("a@b.com", 1); ("a@b.com", 7)] [] [] [].

(** The same driver, except that [fetchall] hands out the given rows. *)
Definition fixed_rows_driver (rows : list row) : driver server () () := {|
  connect := connect mem_driver;
  conn_cursor := conn_cursor mem_driver;
  callproc := callproc mem_driver;
  commit := commit mem_driver;
  execute := execute mem_driver;
  fetchall := λ _ s, (Ok rows, s);
  cursor_close := cursor_close mem_driver;
  conn_close := conn_close mem_driver
|}.

Definition commit_refused : server :=
  Server [("a@b.com", 1)] [] []
    [(OpCommit, PymssqlError OperationalError "Cannot commit transaction")].

End InMemory.

(** * Properties *)

(** ** The handlers follow the run relations *)
Section RunLemmas.
Context {server connection cursor : Type}.
Variable drv : driver server connection cursor.
Variable cfg : config.

(** The two [except] clauses of [register_user]. *)
Lemma register_user_except registration w e w' :
  register_body drv cfg registration w = (Raised e, w') →
  register_user drv cfg registration w
    = (Raised (HTTPException 500 (register_detail e)),
       World (srv w') (logged w' ++ [register_log e]) (calls w')).
Proof.
  intros Hbody. unfold register_user, try_except. rewrite Hbody.
  destruct e; reflexivity.
Qed.

Lemma register_user_else registration w payload w' :
  register_body drv cfg registration w = (Ok payload, w') →
  register_user drv cfg registration w = (Ok payload, w').
Proof. intros Hbody. unfold register_user, try_except. by rewrite Hbody. Qed.

Lemma register_user_run registration s :
  register_run drv cfg registration s
    (register_user drv cfg registration (fresh s)).1
    (register_user drv cfg registration (fresh s)).2.
Proof.
  destruct (register_body drv cfg registration (fresh s)) as [[payload|e] w'] eqn:Hbody.
  - rewrite (register_user_else _ _ _ _ Hbody).
    revert Hbody.
    unfold register_body, bind, with_, pymssql_connect, cursor_of, cursor_callproc,
      conn_commit, invoke, fresh; cbn.
    destruct (connect drv cfg false s) as [[conn|e] s1] eqn:Hconnect; cbn; [|done].
    destruct (conn_cursor drv conn s1) as [[cur|e] s2] eqn:Hcursor; cbn; [|done].
    destruct (callproc drv cur _ _ s2) as [[out|e] s3] eqn:Hcallproc; cbn; [|done].
    destruct (commit drv conn s3) as [[[]|e] s4] eqn:Hcommit; cbn; [|done].
    intros [= <- <-]. eapply register_committed; eassumption.
  - rewrite (register_user_except _ _ _ _ Hbody).
    revert Hbody.
    unfold register_body, bind, with_, pymssql_connect, cursor_of, cursor_callproc,
      conn_commit, invoke, fresh; cbn.
    destruct (connect drv cfg false s) as [[conn|e1] s1] eqn:Hconnect; cbn.
    2: { intros [= <- <-]. by apply register_connect_raised. }
    destruct (conn_cursor drv conn s1) as [[cur|e2] s2] eqn:Hcursor; cbn.
    2: { intros [= <- <-]. eapply register_cursor_raised; eassumption. }
    destruct (callproc drv cur _ _ s2) as [[out|e3] s3] eqn:Hcallproc; cbn.
    2: { intros [= <- <-]. eapply register_callproc_raised; eassumption. }
    destruct (commit drv conn s3) as [[[]|e4] s4] eqn:Hcommit; cbn; [done|].
    intros [= <- <-]. eapply register_commit_raised; eassumption.
Qed.

(** The list comprehension returns the column of every row, in order,
    or raises [KeyError] when a row lacks it. *)
Lemma for_each_getitem key (rows : list row) (w : world server) :
  for_each (λ r, getitem r key) rows w
    = (match mapM (λ r : row, r !! key) rows with
       | Some vs => Ok vs
       | None => Raised (KeyError key)
       end, w).
Proof.
  revert w. induction rows as [|r rows IH]; intros w; [done|].
  cbn [for_each mapM]. unfold bind at 1, getitem at 1.
  destruct (r !! key) as [v|]; cbn; [|done].
  unfold bind at 1. rewrite IH.
  by destruct (mapM _ rows).
Qed.

Lemma get_user_registrations_except user_email w e w' :
  get_body drv cfg user_email w = (Raised e, w') →
  get_user_registrations drv cfg user_email w
    = (Raised (HTTPException 500 (get_detail e)),
       World (srv w') (logged w' ++ [get_log e]) (calls w')).
Proof.
  intros Hbody. unfold get_user_registrations, try_except. rewrite Hbody.
  destruct e; reflexivity.
Qed.

Lemma get_user_registrations_else user_email w payload w' :
  get_body drv cfg user_email w = (Ok payload, w') →
  get_user_registrations drv cfg user_email w = (Ok payload, w').
Proof. intros Hbody. unfold get_user_registrations, try_except. by rewrite Hbody. Qed.

Lemma get_user_registrations_run user_email s :
  get_run drv cfg user_email s
    (get_user_registrations drv cfg user_email (fresh s)).1
    (get_user_registrations drv cfg user_email (fresh s)).2.
Proof.
  destruct (get_body drv cfg user_email (fresh s)) as [[payload|e] w'] eqn:Hbody.
  - rewrite (get_user_registrations_else _ _ _ _ Hbody).
    revert Hbody.
    unfold get_body, bind, with_, pymssql_connect, cursor_of, cursor_execute,
      cursor_fetchall, invoke, fresh; cbn.
    destruct (connect drv cfg true s) as [[conn|e] s1] eqn:Hconnect; cbn; [|done].
    destruct (conn_cursor drv conn s1) as [[cur|e] s2] eqn:Hcursor; cbn; [|done].
    destruct (execute drv cur _ _ s2) as [[[]|e] s3] eqn:Hexecute; cbn; [|done].
    destruct (fetchall drv cur s3) as [[rows|e] s4] eqn:Hfetchall; cbn; [|done].
    rewrite for_each_getitem.
    destruct (mapM _ rows) as [registrations|] eqn:Hcolumn; cbn; [|done].
    intros [= <- <-]. eapply get_fetched; eassumption.
  - rewrite (get_user_registrations_except _ _ _ _ Hbody).
    revert Hbody.
    unfold get_body, bind, with_, pymssql_connect, cursor_of, cursor_execute,
      cursor_fetchall, invoke, fresh; cbn.
    destruct (connect drv cfg true s) as [[conn|e1] s1] eqn:Hconnect; cbn.
    2: { intros [= <- <-]. by apply get_connect_raised. }
    destruct (conn_cursor drv conn s1) as [[cur|e2] s2] eqn:Hcursor; cbn.
    2: { intros [= <- <-]. eapply get_cursor_raised; eassumption. }
    destruct (execute drv cur _ _ s2) as [[[]|e3] s3] eqn:Hexecute; cbn.
    2: { intros [= <- <-]. eapply get_execute_raised; eassumption. }
    destruct (fetchall drv cur s3) as [[rows|e4] s4] eqn:Hfetchall; cbn.
    2: { intros [= <- <-]. eapply get_fetchall_raised; eassumption. }
    rewrite for_each_getitem.
    destruct (mapM _ rows) as [registrations|] eqn:Hcolumn; cbn; [done|].
    intros [= <- <-]. eapply get_column_missing; eassumption.
Qed.

Lemma respond_fst (handler : io server json) w :
  (respond handler w).1 = response_of (handler w).1.
Proof. unfold respond. by destruct (handler w). Qed.

Lemma respond_snd (handler : io server json) w :
  (respond handler w).2 = (handler w).2.
Proof. unfold respond. by destruct (handler w). Qed.

End RunLemmas.

(** ** Handlers are local

    The statements below start a request in a fresh world.  Nothing is
    lost: a handler started in any world behaves as from the fresh one,
    with its records appended to those already there. *)
Section Frame.
Context {server connection cursor : Type}.
Variable drv : driver server connection cursor.
Variable cfg : config.

Lemma after_fresh (w : world server) : after (fresh (srv w)) w = w.
Proof. by destruct w. Qed.

Lemma after_after (w0 w1 w2 : world server) :
  after w0 (after w1 w2) = after (after w0 w1) w2.
Proof. unfold after; cbn. by rewrite !(assoc_L (++)). Qed.

Lemma local_ret {A : Type} (a : A) : local (ret (server:=server) a).
Proof. intros w. unfold ret, after; cbn. destruct w; cbn. by rewrite !(right_id_L [] (++)). Qed.

Lemma local_raise {A : Type} (e : exn) : local (raise (server:=server) (A:=A) e).
Proof. intros w. unfold raise, after; cbn. destruct w; cbn. by rewrite !(right_id_L [] (++)). Qed.

Lemma local_logging_error (msg : string) : local (logging_error (server:=server) msg).
Proof.
  intros w. unfold logging_error, after; cbn. destruct w; cbn.
  by rewrite !(right_id_L [] (++)).
Qed.

Lemma local_invoke {A : Type} (op : server → result A * server) (ev : outcome → call) :
  local (invoke op ev).
Proof.
  intros w. unfold invoke, after; cbn. destruct (op (srv w)); cbn.
  destruct w; cbn. by rewrite !(right_id_L [] (++)).
Qed.

Lemma local_bind {A B : Type} (m : io server A) (k : A → io server B) :
  local m → (∀ a, local (k a)) → local (bind m k).
Proof.
  intros Hm Hk w. unfold bind. rewrite (Hm w).
  destruct (m (fresh (srv w))) as [[a|e] w1]; cbn [fst snd]; [|done].
  rewrite (Hk a (after w w1)), (Hk a w1). cbn [fst snd srv after].
  by rewrite after_after.
Qed.

Lemma release_after (op : server → server) (ev : call) (w0 w' : world server) :
  release op ev (after w0 w') = after w0 (release op ev w').
Proof. unfold release, after; cbn. by rewrite !(assoc_L (++)). Qed.

Lemma local_with {R A : Type} (acquire : io server R)
    (op : R → server → server) (ev : call) (body : R → io server A) :
  local acquire → (∀ r, local (body r)) →
  local (with_ acquire (λ r, release (op r) ev) body).
Proof.
  intros Hacquire Hbody w. unfold with_. rewrite (Hacquire w).
  destruct (acquire (fresh (srv w))) as [[r|e] w1]; cbn [fst snd]; [|done].
  rewrite (Hbody r (after w w1)), (Hbody r w1). cbn [fst snd srv after].
  by rewrite !release_after, after_after.
Qed.

Lemma local_try_except {A : Type} (body : io server A)
    (clauses : list ((exn → bool) * (exn → io server A))) :
  local body → Forall (λ clause, ∀ e, local (clause.2 e)) clauses →
  local (try_except body clauses).
Proof.
  intros Hbody Hclauses w. unfold try_except. rewrite (Hbody w).
  destruct (body (fresh (srv w))) as [[a|e] w1]; cbn [fst snd]; [done|].
  assert (∀ h, select_handler clauses e = Some h → local h) as Hselect.
  { clear -Hclauses. induction Hclauses as [|[matches handler] rest Hhere _ IH]; cbn; [done|].
    intros h. destruct (matches e); [|by apply IH]. intros [= <-]. apply Hhere. }
  destruct (select_handler clauses e) as [h|]; [|done].
  rewrite (Hselect h eq_refl (after w w1)), (Hselect h eq_refl w1). cbn [fst snd srv after].
  by rewrite after_after.
Qed.

Lemma local_for_each {A B : Type} (f : A → io server B) (l : list A) :
  (∀ x, local (f x)) → local (for_each f l).
Proof.
  intros Hf. induction l as [|x l IH]; cbn [for_each]; [apply local_ret|].
  apply local_bind; [apply Hf|]. intros y.
  apply local_bind; [apply IH|]. intros ys. apply local_ret.
Qed.

Lemma local_getitem (r : row) (key : string) : local (getitem (server:=server) r key).
Proof. unfold getitem. destruct (r !! key); [apply local_ret|apply local_raise]. Qed.

Lemma register_user_local (registration : Registration) :
  local (register_user drv cfg registration).
Proof.
  apply local_try_except.
  - apply local_bind; [|intros; apply local_ret].
    apply local_with; [apply local_invoke|]. intros conn.
    apply local_with; [apply local_invoke|]. intros cur.
    apply local_bind; [apply local_invoke|]. intros _. apply local_invoke.
  - repeat constructor; intros e; cbn;
      (apply local_bind; [apply local_logging_error|intros; apply local_raise]).
Qed.

Lemma get_user_registrations_local (user_email : string) :
  local (get_user_registrations drv cfg user_email).
Proof.
  apply local_try_except.
  - apply local_bind; [|intros; apply local_ret].
    apply local_with; [apply local_invoke|]. intros conn.
    apply local_with; [apply local_invoke|]. intros cur.
    apply local_bind; [apply local_invoke|]. intros _.
    apply local_bind; [apply local_invoke|]. intros rows.
    apply local_for_each. intros r. apply local_getitem.
  - repeat constructor; intros e; cbn;
      (apply local_bind; [apply local_logging_error|intros; apply local_raise]).
Qed.

End Frame.

(** A call that differs from every call of an explicit sequence is not in it. *)
Ltac not_called H :=
  repeat (apply elem_of_cons in H as [H|H]; [discriminate H|]);
  by apply elem_of_nil in H.

(** Case analysis of a run of [register_user] from a fresh world. *)
Ltac register_cases drv cfg registration s :=
  let Hrun := fresh "Hrun" in
  pose proof (register_user_run drv cfg registration s) as Hrun;
  rewrite ?respond_fst, ?respond_snd in *;
  destruct (register_user drv cfg registration (fresh s)) as [? ?];
  cbn [fst snd] in *; inversion Hrun; subst; clear Hrun; cbn [calls srv logged] in *.

Ltac get_cases drv cfg user_email s :=
  let Hrun := fresh "Hrun" in
  pose proof (get_user_registrations_run drv cfg user_email s) as Hrun;
  unfold get_registrations in *;
  rewrite ?respond_fst, ?respond_snd in *;
  destruct (get_user_registrations drv cfg user_email (fresh s)) as [? ?];
  cbn [fst snd] in *; inversion Hrun; subst; clear Hrun; cbn [calls srv logged] in *.

(** ** Registration *)

(** C1. For every registration, when the stored procedure call and the
    commit both return, [POST /register] answers 200 with the payload
    [{"status": "success", "message": "Registered for option <choice>"}],
    where [<choice>] is the decimal form of the integer supplied; the
    message determines that integer. *)
Theorem register_success_payload {server connection cursor : Type}
    (drv : driver server connection cursor) (cfg : config)
    (registration : Registration) (s : server) :
  CCallproc "sp_RegisterUser_EynatForm"
    [SqlStr (email registration); SqlInt (choice registration)] Returned
    ∈ calls (respond (register_user drv cfg registration) (fresh s)).2 →
  CCommit Returned ∈ calls (respond (register_user drv cfg registration) (fresh s)).2 →
  (respond (register_user drv cfg registration) (fresh s)).1
    = Response 200
        (JObj [("status", JStr "success");
               ("message", JStr ("Registered for option " +:+ str_int (choice registration)))])
  ∧ ∀ n : Z,
      "Registered for option " +:+ str_int n
        = "Registered for option " +:+ str_int (choice registration) →
      n = choice registration.
Proof.
  intros _ Hcommit. split.
  - register_cases drv cfg registration s; first [not_called Hcommit | reflexivity].
  - intros n Heq. apply (inj pretty). by simplify_eq/=.
Qed.

(** The scenario of the specification: [{"email": "a@b.com", "choice": 3}]
    against a healthy database. *)
Lemma register_success_payload_witness :
  (respond (register_user InMemory.mem_driver InMemory.env_cfg (mkRegistration "a@b.com" 3))
     (fresh InMemory.healthy)).1
    = Response 200
        (JObj [("status", JStr "success"); ("message", JStr "Registered for option 3")]).
Proof.
  refine (proj1 (register_success_payload InMemory.mem_driver InMemory.env_cfg
                   (mkRegistration "a@b.com" 3) InMemory.healthy _ _)).
  - vm_compute. repeat constructor.
  - vm_compute. repeat constructor.
Defined.

(** C9. The success payload of [POST /register] depends on the choice only:
    two successful registrations with the same choice, whatever the two
    emails (and whatever the drivers and servers), get identical responses. *)
Theorem register_payload_ignores_email
    {server1 connection1 cursor1 server2 connection2 cursor2 : Type}
    (drv1 : driver server1 connection1 cursor1) (drv2 : driver server2 connection2 cursor2)
    (cfg1 cfg2 : config) (registration1 registration2 : Registration)
    (s1 : server1) (s2 : server2) :
  choice registration1 = choice registration2 →
  status (respond (register_user drv1 cfg1 registration1) (fresh s1)).1 = 200 →
  status (respond (register_user drv2 cfg2 registration2) (fresh s2)).1 = 200 →
  (respond (register_user drv1 cfg1 registration1) (fresh s1)).1
    = (respond (register_user drv2 cfg2 registration2) (fresh s2)).1.
Proof.
  intros Hchoice Hok1 Hok2.
  register_cases drv1 cfg1 registration1 s1; try discriminate Hok1.
  register_cases drv2 cfg2 registration2 s2; try discriminate Hok2.
  unfold register_payload. by rewrite Hchoice.
Qed.

Lemma register_payload_ignores_email_witness :
  (respond (register_user InMemory.mem_driver InMemory.env_cfg (mkRegistration "a@b.com" 3))
     (fresh InMemory.healthy)).1
    = (respond (register_user InMemory.mem_driver InMemory.env_cfg
                  (mkRegistration "someone.else@example.org" 3))
         (fresh InMemory.healthy)).1.
Proof.
  apply register_payload_ignores_email; reflexivity.
Defined.

(** C10. [register_user] does not look at what the stored procedure
    produced: whenever [callproc] and [commit] return, whatever tuple [out]
    the procedure returned and whatever state [s3] it left the server in,
    the handler answers with the success payload. *)
Theorem register_ignores_procedure_result {server connection cursor : Type}
    (drv : driver server connection cursor) (cfg : config)
    (registration : Registration) (s : server)
    (conn : connection) (s1 : server) (cur : cursor) (s2 : server)
    (out : list sqlval) (s3 s4 : server) :
  connect drv cfg false s = (Ok conn, s1) →
  conn_cursor drv conn s1 = (Ok cur, s2) →
  callproc drv cur "sp_RegisterUser_EynatForm"
    [SqlStr (email registration); SqlInt (choice registration)] s2 = (Ok out, s3) →
  commit drv conn s3 = (Ok (), s4) →
  (respond (register_user drv cfg registration) (fresh s)).1
    = Response 200
        (JObj [("status", JStr "success");
               ("message", JStr ("Registered for option " +:+ str_int (choice registration)))])
  ∧ logged (respond (register_user drv cfg registration) (fresh s)).2 = [].
Proof.
  intros Hconnect Hcursor Hcallproc Hcommit.
  rewrite respond_fst, respond_snd.
  unfold register_user, try_except, register_body, bind, with_, pymssql_connect,
    cursor_of, cursor_callproc, conn_commit, invoke, fresh; cbn.
  rewrite Hconnect; cbn. rewrite Hcursor; cbn. rewrite Hcallproc; cbn.
  rewrite Hcommit; cbn. done.
Qed.

Lemma register_ignores_procedure_result_witness :
  (respond (register_user InMemory.mem_driver InMemory.env_cfg (mkRegistration "a@b.com" 3))
     (fresh InMemory.healthy)).1
    = Response 200
        (JObj [("status", JStr "success"); ("message", JStr "Registered for option 3")])
  ∧ logged (respond (register_user InMemory.mem_driver InMemory.env_cfg
                       (mkRegistration "a@b.com" 3)) (fresh InMemory.healthy)).2 = [].
Proof.
  eapply (register_ignores_procedure_result InMemory.mem_driver InMemory.env_cfg
            (mkRegistration "a@b.com" 3) InMemory.healthy); reflexivity.
Defined.

(** ** Lookup *)

(** C3. When the select for an email returns no row, [GET
    /registrations/{user_email}] answers 200 with
    [{"email": user_email, "registrations": []}]. *)
Theorem lookup_no_rows {server connection cursor : Type}
    (drv : driver server connection cursor) (cfg : config) (user_email : string)
    (s : server) (conn : connection) (s1 : server) (cur : cursor) (s2 s3 s4 : server) :
  connect drv cfg true s = (Ok conn, s1) →
  conn_cursor drv conn s1 = (Ok cur, s2) →
  execute drv cur "SELECT RegNumber FROM EYNATFORM_ALL WHERE email = %s"
    [SqlStr user_email] s2 = (Ok (), s3) →
  fetchall drv cur s3 = (Ok [], s4) →
  (get_registrations drv cfg user_email (fresh s)).1
    = Response 200 (JObj [("email", JStr user_email); ("registrations", JList [])]).
Proof.
  intros Hconnect Hcursor Hexecute Hfetchall.
  unfold get_registrations. rewrite respond_fst.
  unfold get_user_registrations, try_except, get_body, bind, with_, pymssql_connect,
    cursor_of, cursor_execute, cursor_fetchall, invoke, fresh; cbn.
  rewrite Hconnect; cbn. rewrite Hcursor; cbn. rewrite Hexecute; cbn.
  rewrite Hfetchall; cbn. reflexivity.
Qed.

(** The scenario of the specification: nobody@x.com has no row. *)
Lemma lookup_no_rows_witness :
  (get_registrations InMemory.mem_driver InMemory.env_cfg "nobody@x.com"
     (fresh InMemory.healthy)).1
    = Response 200 (JObj [("email", JStr "nobody@x.com"); ("registrations", JList [])]).
Proof.
  eapply (lookup_no_rows InMemory.mem_driver InMemory.env_cfg "nobody@x.com"
            InMemory.healthy); reflexivity.
Defined.

(** C4. When the select returns the rows [rows], each carrying an integer
    [RegNumber], the registrations in the answer are exactly those
    integers, one per row and in the order of the rows: nothing is
    dropped, merged or sorted. *)
Theorem lookup_rows_in_order {server connection cursor : Type}
    (drv : driver server connection cursor) (cfg : config) (user_email : string)
    (s : server) (conn : connection) (s1 : server) (cur : cursor) (s2 s3 s4 : server)
    (rows : list row) (numbers : list Z) :
  connect drv cfg true s = (Ok conn, s1) →
  conn_cursor drv conn s1 = (Ok cur, s2) →
  execute drv cur "SELECT RegNumber FROM EYNATFORM_ALL WHERE email = %s"
    [SqlStr user_email] s2 = (Ok (), s3) →
  fetchall drv cur s3 = (Ok rows, s4) →
  Forall2 (λ (r : row) (n : Z), r !! "RegNumber" = Some (SqlInt n)) rows numbers →
  (get_registrations drv cfg user_email (fresh s)).1
    = Response 200
        (JObj [("email", JStr user_email); ("registrations", JList (JInt <$> numbers))])
  ∧ length numbers = length rows.
Proof.
  intros Hconnect Hcursor Hexecute Hfetchall Hrows. split.
  - unfold get_registrations. rewrite respond_fst.
    unfold get_user_registrations, try_except, get_body, bind, with_, pymssql_connect,
      cursor_of, cursor_execute, cursor_fetchall, invoke, fresh; cbn.
    rewrite Hconnect; cbn. rewrite Hcursor; cbn. rewrite Hexecute; cbn.
    rewrite Hfetchall; cbn. rewrite for_each_getitem.
    assert (mapM (λ r : row, r !! "RegNumber") rows = Some (SqlInt <$> numbers)) as ->.
    { apply mapM_Some_2, Forall2_fmap_r. exact Hrows. }
    cbn. rewrite <- list_fmap_compose. reflexivity.
  - symmetry. eapply Forall2_length, Hrows.
Qed.

(** The scenario of the specification: the rows [{RegNumber: 1}] and
    [{RegNumber: 7}] give [[1, 7]]. *)
Lemma lookup_rows_in_order_witness :
  (get_registrations InMemory.mem_driver InMemory.env_cfg "a@b.com" (fresh InMemory.healthy)).1
    = Response 200
        (JObj [("email", JStr "a@b.com"); ("registrations", JList [JInt 1; JInt 7])])
  ∧ length [1; 7] = 2%nat.
Proof.
  eapply (lookup_rows_in_order InMemory.mem_driver InMemory.env_cfg "a@b.com"
            InMemory.healthy _ _ _ _ _ _
            [{[ "RegNumber" := SqlInt 1 ]}; {[ "RegNumber" := SqlInt 7 ]}] [1; 7]);
    try reflexivity.
  repeat constructor.
Defined.

(** Rows that repeat a number and are not sorted come out as fetched. *)
Example lookup_keeps_repeats_and_order :
  (get_registrations InMemory.mem_driver InMemory.env_cfg "a@b.com"
     (fresh InMemory.repeated)).1
    = Response 200
        (JObj [("email", JStr "a@b.com"); ("registrations", JList [JInt 7; JInt 1; JInt 7])]).
Proof. reflexivity. Qed.

(** A row without the column makes the comprehension raise [KeyError],
    which the second [except] clause turns into the generic 500. *)
Example lookup_row_without_column :
  (get_registrations
     {| connect := connect InMemory.mem_driver;
        conn_cursor := conn_cursor InMemory.mem_driver;
        callproc := callproc InMemory.mem_driver;
        commit := commit InMemory.mem_driver;
        execute := execute InMemory.mem_driver;
        fetchall := λ _ s, (Ok [∅], s);
        cursor_close := cursor_close InMemory.mem_driver;
        conn_close := conn_close InMemory.mem_driver |}
     InMemory.env_cfg "a@b.com" (fresh InMemory.healthy)).1
    = Response 500 (JObj [("detail", JStr "An unexpected server error occurred.")]).
Proof. reflexivity. Qed.

(** ** Failures *)

(** What is left of [raised_in e tr] for an explicit sequence [tr]: the
    calls that returned are ruled out, the one that raised gives [e]. *)
Ltac raised_call H :=
  let c := fresh "c" in
  let Hin := fresh "Hin" in
  let Hout := fresh "Hout" in
  destruct H as (c & Hin & Hout);
  repeat (apply elem_of_cons in Hin as [->|Hin]; [try discriminate Hout|]);
  try (by apply elem_of_nil in Hin);
  try (injection Hout as ->).

(** C5. When a driver call raises a [pymssql.Error] during either handler,
    the answer is a 500 whose body is that endpoint's fixed message.  The
    body is the same whatever the class and the text of the error: nothing
    of the error reaches the response. *)
Theorem database_failure_generic_500 {server connection cursor : Type}
    (drv : driver server connection cursor) (cfg : config) (s : server)
    (cls : pymssql_error) (text : string) :
  (∀ registration : Registration,
     raised_in (PymssqlError cls text)
       (calls (respond (register_user drv cfg registration) (fresh s)).2) →
     (respond (register_user drv cfg registration) (fresh s)).1
       = Response 500 (JObj [("detail", JStr "Database operation failed.")]))
  ∧ (∀ user_email : string,
       raised_in (PymssqlError cls text)
         (calls (get_registrations drv cfg user_email (fresh s)).2) →
       (get_registrations drv cfg user_email (fresh s)).1
         = Response 500 (JObj [("detail", JStr "Could not retrieve registration data.")])).
Proof.
  split.
  - intros registration Hraised.
    register_cases drv cfg registration s; raised_call Hraised; reflexivity.
  - intros user_email Hraised.
    get_cases drv cfg user_email s; raised_call Hraised; reflexivity.
Qed.

Lemma database_failure_generic_500_witness :
  (respond (register_user InMemory.mem_driver InMemory.env_cfg (mkRegistration "a@b.com" 3))
     (fresh InMemory.unreachable)).1
    = Response 500 (JObj [("detail", JStr "Database operation failed.")])
  ∧ (get_registrations InMemory.mem_driver InMemory.env_cfg "a@b.com"
       (fresh InMemory.unreachable)).1
      = Response 500 (JObj [("detail", JStr "Could not retrieve registration data.")]).
Proof.
  pose proof (database_failure_generic_500 InMemory.mem_driver InMemory.env_cfg
                InMemory.unreachable OperationalError
                "(20009, b'Unable to connect: db.example.net')") as [Hpost Hget].
  split.
  - apply Hpost.
    exists (CConnect InMemory.env_cfg false
              (Raise (PymssqlError OperationalError
                        "(20009, b'Unable to connect: db.example.net')"))).
    split; [vm_compute; repeat constructor | reflexivity].
  - apply Hget.
    exists (CConnect InMemory.env_cfg true
              (Raise (PymssqlError OperationalError
                        "(20009, b'Unable to connect: db.example.net')"))).
    split; [vm_compute; repeat constructor | reflexivity].
Defined.

(** C2, as stated, fails: when the connection is refused with a
    [pymssql.Error], the lookup does not answer with the detail of
    [POST /register]. *)
Lemma lookup_database_error_detail_counterexample :
  raised_in (PymssqlError OperationalError "(20009, b'Unable to connect: db.example.net')")
    (calls (get_registrations InMemory.mem_driver InMemory.env_cfg "a@b.com"
              (fresh InMemory.unreachable)).2)
  ∧ (get_registrations InMemory.mem_driver InMemory.env_cfg "a@b.com"
       (fresh InMemory.unreachable)).1
      ≠ Response 500 (JObj [("detail", JStr "Database operation failed.")])
  ∧ (respond (register_user InMemory.mem_driver InMemory.env_cfg (mkRegistration "a@b.com" 3))
       (fresh InMemory.unreachable)).1
      = Response 500 (JObj [("detail", JStr "Database operation failed.")]).
Proof.
  split; [|split].
  - exists (CConnect InMemory.env_cfg true
              (Raise (PymssqlError OperationalError
                        "(20009, b'Unable to connect: db.example.net')"))).
    split; [vm_compute; repeat constructor | reflexivity].
  - vm_compute. discriminate.
  - reflexivity.
Qed.

(** C2, amended. When a driver call raises during the lookup, the answer is
    a 500 with a [detail] body, as for [POST /register]: the detail is
    "Could not retrieve registration data." for a [pymssql.Error] and
    "An unexpected server error occurred." for any other exception; the
    latter is also what [POST /register] answers to such an exception. *)
Theorem lookup_error_shapes {server connection cursor : Type}
    (drv : driver server connection cursor) (cfg : config) (s : server) (e : exn) :
  (∀ user_email : string,
     raised_in e (calls (get_registrations drv cfg user_email (fresh s)).2) →
     (get_registrations drv cfg user_email (fresh s)).1
       = Response 500
           (JObj [("detail",
                   JStr match e with
                        | PymssqlError _ _ => "Could not retrieve registration data."
                        | _ => "An unexpected server error occurred."
                        end)]))
  ∧ (∀ registration : Registration,
       raised_in e (calls (respond (register_user drv cfg registration) (fresh s)).2) →
       (respond (register_user drv cfg registration) (fresh s)).1
         = Response 500
             (JObj [("detail",
                     JStr match e with
                          | PymssqlError _ _ => "Database operation failed."
                          | _ => "An unexpected server error occurred."
                          end)])).
Proof.
  split.
  - intros user_email Hraised.
    get_cases drv cfg user_email s; raised_call Hraised; by destruct e.
  - intros registration Hraised.
    register_cases drv cfg registration s; raised_call Hraised; by destruct e.
Qed.

Lemma lookup_error_shapes_witness :
  (get_registrations InMemory.mem_driver InMemory.env_cfg "a@b.com"
     (fresh InMemory.unreachable)).1
    = Response 500 (JObj [("detail", JStr "Could not retrieve registration data.")]).
Proof.
  apply (proj1 (lookup_error_shapes InMemory.mem_driver InMemory.env_cfg InMemory.unreachable
                  (PymssqlError OperationalError
                     "(20009, b'Unable to connect: db.example.net')"))).
  exists (CConnect InMemory.env_cfg true
            (Raise (PymssqlError OperationalError
                      "(20009, b'Unable to connect: db.example.net')"))).
  split; [vm_compute; repeat constructor | reflexivity].
Defined.

(** ** Transactions *)

Section Durable.
Context {server connection cursor D : Type}.
Variable drv : driver server connection cursor.
Variable durable : server → D.
Hypothesis Htx : transactional drv durable.

Lemma connect_keeps cfg as_dict s r s' :
  connect drv cfg as_dict s = (r, s') → durable s' = durable s.
Proof. intros H. by rewrite <- (connect_durable _ _ Htx cfg as_dict s), H. Qed.

Lemma conn_cursor_keeps conn s r s' :
  conn_cursor drv conn s = (r, s') → durable s' = durable s.
Proof. intros H. by rewrite <- (conn_cursor_durable _ _ Htx conn s), H. Qed.

Lemma callproc_keeps cur procname params s r s' :
  callproc drv cur procname params s = (r, s') → durable s' = durable s.
Proof. intros H. by rewrite <- (callproc_durable _ _ Htx cur procname params s), H. Qed.

End Durable.

(** C6. In every run of [register_user]: a [commit] call is made only
    after the stored procedure call has returned; a run that returns has
    made exactly one [commit], which returned; a run that raises has no
    [commit] that returned, whether [connect], [cursor], [callproc] or
    [commit] itself raised, and on a transactional driver it leaves the
    durable state of the server as it found it. *)
Theorem register_commit_discipline {server connection cursor D : Type}
    (drv : driver server connection cursor) (cfg : config) (durable : server → D)
    (registration : Registration) (s : server) (r : result json) (w' : world server) :
  register_user drv cfg registration (fresh s) = (r, w') →
  (∀ (pre : list call) (o : outcome) (post : list call),
     calls w' = (pre ++ CCommit o :: post)%list →
     CCallproc "sp_RegisterUser_EynatForm"
       [SqlStr (email registration); SqlInt (choice registration)] Returned ∈ pre)
  ∧ (∀ payload, r = Ok payload → commit_calls (calls w') = [Returned])
  ∧ (∀ e, r = Raised e →
       (Returned ∉ commit_calls (calls w'))
       ∧ (transactional drv durable → durable (srv w') = durable s)).
Proof.
  intros Hrun.
  pose proof (register_user_run drv cfg registration s) as Hcases.
  rewrite Hrun in Hcases. cbn [fst snd] in Hcases. clear Hrun.
  inversion Hcases; subst; clear Hcases; cbn [calls srv]; unfold register_args.
  all: split; [|split].
  (* a commit call comes after the procedure call *)
  all: try (intros pre o post Hsplit;
            repeat (destruct pre as [|? pre]; simplify_eq/=);
            repeat constructor).
  (* a run that returns *)
  all: try (intros payload [=]; reflexivity).
  (* a run that raises *)
  all: intros e' _; split; [cbn; intros Hin; not_called Hin|intros Htx].
  all: rewrite ?(conn_close_durable _ _ Htx), ?(cursor_close_durable _ _ Htx).
  all: repeat match goal with
         | H : connect _ _ _ _ = _ |- _ => apply (connect_keeps _ _ Htx) in H
         | H : conn_cursor _ _ _ = _ |- _ => apply (conn_cursor_keeps _ _ Htx) in H
         | H : callproc _ _ _ _ _ = _ |- _ => apply (callproc_keeps _ _ Htx) in H
         | H : commit _ _ _ = (Raised _, _) |- _ => apply (commit_raised_durable _ _ Htx) in H
         end.
  all: congruence.
Qed.

Lemma mem_driver_transactional : transactional InMemory.mem_driver InMemory.table.
Proof.
  split; cbn; unfold InMemory.attempt.
  - intros _ _ s. by destruct (InMemory.fault _ _).
  - intros _ s. by destruct (InMemory.fault _ _).
  - intros _ _ params s. destruct (InMemory.fault _ _); [done|].
    by repeat case_match.
  - intros _ s e s'. by destruct (InMemory.fault _ _); intros [= <- <-].
  - done.
  - done.
Qed.

(** A registration whose commit is refused: the table is as before. *)
Lemma register_commit_discipline_witness :
  InMemory.table
    (srv (register_user InMemory.mem_driver InMemory.env_cfg (mkRegistration "a@b.com" 3)
            (fresh InMemory.commit_refused)).2)
    = InMemory.table InMemory.commit_refused.
Proof.
  destruct (register_commit_discipline InMemory.mem_driver InMemory.env_cfg InMemory.table
              (mkRegistration "a@b.com" 3) InMemory.commit_refused _ _ eq_refl)
    as (_ & _ & Hraises).
  exact (proj2 (Hraises _ eq_refl) mem_driver_transactional).
Defined.

(** ** Validation *)

(** The malformed bodies are exactly those [Registration] rejects. *)
Lemma malformed_iff (pydantic : validators) (body : json) :
  malformed pydantic body ↔ validate_Registration pydantic body = None.
Proof.
  split.
  - intros [body' Hshape|fields He|fields Hc|fields v He Hv|fields v Hc Hv]; cbn.
    + destruct body'; try done. by destruct (Hshape fields).
    + by rewrite He.
    + rewrite Hc. by destruct (obj_get "email" fields ≫= str_field pydantic).
    + by rewrite He; cbn; rewrite Hv.
    + rewrite Hc; cbn; rewrite Hv.
      by destruct (obj_get "email" fields ≫= str_field pydantic).
  - destruct body as [| | | | |fields]; try (intros _; by apply not_an_object).
    cbn. destruct (obj_get "email" fields) as [ve|] eqn:He; cbn.
    2: { intros _. by apply missing_email. }
    destruct (str_field pydantic ve) as [e|] eqn:Hve; cbn.
    2: { intros _. by eapply email_wrong_type. }
    destruct (obj_get "choice" fields) as [vc|] eqn:Hc; cbn.
    2: { intros _. by apply missing_choice. }
    destruct (int_field pydantic vc) as [c|] eqn:Hvc; cbn; [done|].
    intros _. by eapply choice_wrong_type.
Qed.


(** The same with the boolean [true], registered as choice 1. *)
Example boolean_choice_registered :
  (post_register InMemory.mem_driver InMemory.env_cfg InMemory.coercing
     (JObj [("email", JStr "a@b.com"); ("choice", JBool true)]) (fresh InMemory.healthy)).1
    = Response 200
        (JObj [("status", JStr "success"); ("message", JStr "Registered for option 1")]).
Proof. reflexivity. Qed.





(** ** Startup *)

(** C8. Importing the module reads the four connection parameters from
    the environment.  When one of them is absent it logs one CRITICAL
    record, and in every case the import completes: the application runs
    with the configuration as read.  The first thing either handler then
    does is [connect] with that configuration, and when that call raises
    the request is answered with a 500. *)
Theorem load_config_logs_without_exit {server connection cursor : Type}
    (drv : driver server connection cursor) (environ : gmap string string) (s : server) :
  (∃ cfg logged, load_config environ = Running cfg logged)
  ∧ ∀ (cfg : config) (logged : list log_record),
      load_config environ = Running cfg logged →
      cfg = Config (environ !! "DB_SERVER") (environ !! "DB_DATABASE")
              (environ !! "DB_USER") (environ !! "DB_PASSWORD")
      ∧ (environ !! "DB_SERVER" = None ∨ environ !! "DB_DATABASE" = None
         ∨ environ !! "DB_USER" = None ∨ environ !! "DB_PASSWORD" = None →
         logged = [(CRITICAL, "Database environment variables are not set. Exiting.")])
      ∧ (∀ registration : Registration,
           ∃ o : outcome,
             head (calls (respond (register_user drv cfg registration) (fresh s)).2)
               = Some (CConnect cfg false o)
             ∧ (o ≠ Returned →
                status (respond (register_user drv cfg registration) (fresh s)).1 = 500))
      ∧ (∀ user_email : string,
           ∃ o : outcome,
             head (calls (get_registrations drv cfg user_email (fresh s)).2)
               = Some (CConnect cfg true o)
             ∧ (o ≠ Returned →
                status (get_registrations drv cfg user_email (fresh s)).1 = 500)).
Proof.
  split.
  { unfold load_config. destruct (negb _); eauto. }
  intros cfg logged Hload. split; [|split; [|split]].
  - unfold load_config in Hload. by destruct (negb _); injection Hload as <- _.
  - intros Habsent. unfold load_config, environ_get in Hload.
    destruct (negb (all _)) eqn:Hall; injection Hload as _ <-; [done|].
    apply negb_false_iff in Hall. cbn in Hall.
    destruct Habsent as [H|[H|[H|H]]]; rewrite H in Hall; cbn in Hall;
      rewrite ?andb_false_r in Hall; done.
  - intros registration.
    register_cases drv cfg registration s; eexists; (split; [reflexivity|done]).
  - intros user_email.
    get_cases drv cfg user_email s; eexists; (split; [reflexivity|done]).
Qed.

(** Only [DB_SERVER] is set: a CRITICAL record is logged, the application
    runs, and a registration is answered with 500 once [connect] refuses
    the incomplete configuration. *)
Lemma load_config_logs_without_exit_witness :
  load_config {[ "DB_SERVER" := "db.example.net" ]}
    = Running (Config (Some "db.example.net") None None None)
        [(CRITICAL, "Database environment variables are not set. Exiting.")]
  ∧ status (respond (register_user InMemory.mem_driver
                       (Config (Some "db.example.net") None None None)
                       (mkRegistration "a@b.com" 3)) (fresh InMemory.unreachable)).1 = 500.
Proof.
  destruct (load_config_logs_without_exit InMemory.mem_driver
              {[ "DB_SERVER" := "db.example.net" ]} InMemory.unreachable)
    as [(cfg & logged & Hload) Hrest].
  destruct (Hrest cfg logged Hload) as (-> & Hlogged & Hpost & _).
  rewrite (Hlogged (or_intror (or_introl eq_refl))) in Hload.
  split; [exact Hload|].
  destruct (Hpost (mkRegistration "a@b.com" 3)) as (o & Hfirst & Hstatus).
  apply Hstatus. vm_compute in Hfirst. injection Hfirst as <-. discriminate.
Defined.

(** * Further properties of the module *)

(** ** Startup: which environments are reported *)

Lemma truthy_false (v : option string) : truthy v = false ↔ v = None ∨ v = Some "".
Proof.
  destruct v as [s|]; cbn.
  - rewrite negb_false_iff, String.eqb_eq. split.
    + intros ->. by right.
    + by intros [[=]|[= ->]].
  - split; [by left|done].
Qed.

Lemma truthy_true (v : option string) : truthy v = true ↔ ∃ s, v = Some s ∧ s ≠ "".
Proof.
  destruct v as [s|]; cbn.
  - rewrite negb_true_iff, String.eqb_neq. split.
    + intros Hs. by exists s.
    + by intros (s' & [= <-] & Hs).
  - split; [done|]. by intros (s & [=] & _).
Qed.

(** X1. The CRITICAL record is logged exactly when one of the four
    variables is absent or set to the empty string ([not all([...])] tests
    truthiness, not presence); in every other environment the import logs
    nothing. *)
Theorem load_config_log_iff (environ : gmap string string) :
  ((∃ cfg, load_config environ
             = Running cfg [(CRITICAL, "Database environment variables are not set. Exiting.")])
   ↔ Exists (λ k, environ !! k = None ∨ environ !! k = Some "")
       ["DB_SERVER"; "DB_DATABASE"; "DB_USER"; "DB_PASSWORD"])
  ∧ ((∃ cfg, load_config environ = Running cfg [])
     ↔ Forall (λ k, ∃ v, environ !! k = Some v ∧ v ≠ "")
         ["DB_SERVER"; "DB_DATABASE"; "DB_USER"; "DB_PASSWORD"]).
Proof.
  assert (all [environ !! "DB_SERVER"; environ !! "DB_DATABASE";
               environ !! "DB_USER"; environ !! "DB_PASSWORD"] = false
          ↔ Exists (λ k, environ !! k = None ∨ environ !! k = Some "")
              ["DB_SERVER"; "DB_DATABASE"; "DB_USER"; "DB_PASSWORD"]) as Hsome.
  { unfold all; cbn [forallb].
    rewrite !andb_false_iff, !truthy_false, !Exists_cons, Exists_nil.
    assert (true = false ↔ False) as -> by done. tauto. }
  assert (all [environ !! "DB_SERVER"; environ !! "DB_DATABASE";
               environ !! "DB_USER"; environ !! "DB_PASSWORD"] = true
          ↔ Forall (λ k, ∃ v, environ !! k = Some v ∧ v ≠ "")
              ["DB_SERVER"; "DB_DATABASE"; "DB_USER"; "DB_PASSWORD"]) as Hevery.
  { unfold all; cbn [forallb].
    rewrite !andb_true_iff, !truthy_true, !Forall_cons, Forall_nil. tauto. }
  rewrite <- Hsome, <- Hevery. unfold load_config, environ_get.
  destruct (all _); cbn [negb]; split; split.
  all: try done.
  all: try (intros _; by eexists).
  all: intros (cfg & Heq); simplify_eq.
Qed.

(** All four variables are set, but [DB_USER] to the empty string. *)
Lemma load_config_log_iff_witness :
  ∃ cfg, load_config {[ "DB_SERVER" := "db.example.net"; "DB_DATABASE" := "forms";
                        "DB_USER" := ""; "DB_PASSWORD" := "secret" ]}
           = Running cfg [(CRITICAL, "Database environment variables are not set. Exiting.")].
Proof.
  apply (proj2 (proj1 (load_config_log_iff
                         {[ "DB_SERVER" := "db.example.net"; "DB_DATABASE" := "forms";
                            "DB_USER" := ""; "DB_PASSWORD" := "secret" ]}))).
  apply Exists_cons_tl, Exists_cons_tl, Exists_cons_hd. right. reflexivity.
Defined.

(** ** What a handler can answer *)


(** ** Handles and retries *)

(** X3. In every run of either handler the connection and the cursor are
    used only while open, the cursor is closed before the connection, and
    nothing is left open when the handler answers, whether it returns or
    raises. *)
Theorem handlers_release_handles {server connection cursor : Type}
    (drv : driver server connection cursor) (cfg : config) (s : server) :
  (∀ registration : Registration,
     scoped [] (calls (register_user drv cfg registration (fresh s)).2) = true)
  ∧ (∀ user_email : string,
       scoped [] (calls (get_user_registrations drv cfg user_email (fresh s)).2) = true).
Proof.
  split.
  - intros registration. register_cases drv cfg registration s; reflexivity.
  - intros user_email. get_cases drv cfg user_email s; reflexivity.
Qed.

(** X4. Nothing is retried: in every run of either handler no driver
    operation is invoked twice, and once a call has raised the only calls
    that follow are the closes. *)
Theorem handlers_do_not_retry {server connection cursor : Type}
    (drv : driver server connection cursor) (cfg : config) (s : server) :
  (∀ registration : Registration,
     NoDup (call_name <$> calls (register_user drv cfg registration (fresh s)).2)
     ∧ stops_at_failure (calls (register_user drv cfg registration (fresh s)).2) = true)
  ∧ (∀ user_email : string,
       NoDup (call_name <$> calls (get_user_registrations drv cfg user_email (fresh s)).2)
       ∧ stops_at_failure
           (calls (get_user_registrations drv cfg user_email (fresh s)).2) = true).
Proof.
  split.
  - intros registration. register_cases drv cfg registration s.
    all: split; [cbn; compute_done|reflexivity].
  - intros user_email. get_cases drv cfg user_email s.
    all: split; [cbn; compute_done|reflexivity].
Qed.

(** ** What reaches the database *)

(** X5. User input reaches the driver only as parameters.  In every run of
    [register_user] each [connect] gets the module configuration, each
    [callproc] names [sp_RegisterUser_EynatForm] and carries the email and
    the choice of the request, in that order, and no query is executed.
    In every run of [get_user_registrations] each [execute] carries the one
    fixed query text, with the email as its only parameter. *)
Theorem handlers_pass_input_as_parameters {server connection cursor : Type}
    (drv : driver server connection cursor) (cfg : config) (s : server) :
  (∀ registration : Registration,
     Forall (λ c, match c with
                  | CConnect cfg' as_dict _ => cfg' = cfg ∧ as_dict = false
                  | CCallproc procname params _ =>
                      procname = "sp_RegisterUser_EynatForm"
                      ∧ params = [SqlStr (email registration); SqlInt (choice registration)]
                  | CExecute _ _ _ | CFetchall _ => False
                  | _ => True
                  end)
       (calls (register_user drv cfg registration (fresh s)).2))
  ∧ (∀ user_email : string,
       Forall (λ c, match c with
                    | CConnect cfg' as_dict _ => cfg' = cfg ∧ as_dict = true
                    | CExecute query params _ =>
                        query = "SELECT RegNumber FROM EYNATFORM_ALL WHERE email = %s"
                        ∧ params = [SqlStr user_email]
                    | CCallproc _ _ _ | CCommit _ => False
                    | _ => True
                    end)
         (calls (get_user_registrations drv cfg user_email (fresh s)).2)).
Proof.
  split.
  - intros registration. register_cases drv cfg registration s; by repeat constructor.
  - intros user_email. get_cases drv cfg user_email s; by repeat constructor.
Qed.

Section ReadOnly.
Context {server connection cursor D : Type}.
Variable drv : driver server connection cursor.
Variable durable : server → D.
Hypothesis Hreads : reads_only drv durable.

Lemma execute_keeps cur query params s r s' :
  execute drv cur query params s = (r, s') → durable s' = durable s.
Proof. intros H. by rewrite <- (execute_durable _ _ Hreads cur query params s), H. Qed.

Lemma fetchall_keeps cur s r s' :
  fetchall drv cur s = (r, s') → durable s' = durable s.
Proof. intros H. by rewrite <- (fetchall_durable _ _ Hreads cur s), H. Qed.

End ReadOnly.

(** X6. The lookup is read-only: no run of [get_user_registrations] calls
    [commit], and on a driver where only a returning [commit] changes the
    durable state and queries do not, the durable state after the request
    is the one before it, whether the handler returns or raises. *)
Theorem lookup_is_read_only {server connection cursor D : Type}
    (drv : driver server connection cursor) (cfg : config) (durable : server → D)
    (user_email : string) (s : server) :
  transactional drv durable →
  reads_only drv durable →
  commit_calls (calls (get_user_registrations drv cfg user_email (fresh s)).2) = []
  ∧ durable (srv (get_user_registrations drv cfg user_email (fresh s)).2) = durable s.
Proof.
  intros Htx Hreads.
  get_cases drv cfg user_email s; (split; [reflexivity|]).
  all: rewrite ?(conn_close_durable _ _ Htx), ?(cursor_close_durable _ _ Htx).
  all: repeat match goal with
         | H : connect _ _ _ _ = _ |- _ => apply (connect_keeps _ _ Htx) in H
         | H : conn_cursor _ _ _ = _ |- _ => apply (conn_cursor_keeps _ _ Htx) in H
         | H : execute _ _ _ _ _ = _ |- _ => apply (execute_keeps _ _ Hreads) in H
         | H : fetchall _ _ _ = _ |- _ => apply (fetchall_keeps _ _ Hreads) in H
         end.
  all: congruence.
Qed.

Lemma mem_driver_reads_only : reads_only InMemory.mem_driver InMemory.table.
Proof.
  split; cbn; unfold InMemory.attempt.
  - intros _ _ params s. destruct (InMemory.fault _ _); [done|]. by repeat case_match.
  - intros _ s. by destruct (InMemory.fault _ _).
Qed.

Lemma lookup_is_read_only_witness :
  commit_calls (calls (get_user_registrations InMemory.mem_driver InMemory.env_cfg "a@b.com"
                         (fresh InMemory.healthy)).2) = []
  ∧ InMemory.table
      (srv (get_user_registrations InMemory.mem_driver InMemory.env_cfg "a@b.com"
              (fresh InMemory.healthy)).2)
    = InMemory.table InMemory.healthy.
Proof.
  exact (lookup_is_read_only InMemory.mem_driver InMemory.env_cfg InMemory.table "a@b.com"
           InMemory.healthy mem_driver_transactional mem_driver_reads_only).
Defined.

(** ** Logging *)

(** X7. [register_user] logs nothing when it returns.  When a driver call
    raises, it logs exactly one ERROR record, made of a prefix and the
    text of the exception: the text that the response withholds goes to
    the log. *)
Theorem register_logs_failure {server connection cursor : Type}
    (drv : driver server connection cursor) (cfg : config)
    (registration : Registration) (s : server) :
  (status (respond (register_user drv cfg registration) (fresh s)).1 = 200 →
   logged (respond (register_user drv cfg registration) (fresh s)).2 = [])
  ∧ (∀ e : exn,
       raised_in e (calls (respond (register_user drv cfg registration) (fresh s)).2) →
       logged (respond (register_user drv cfg registration) (fresh s)).2
         = [(ERROR,
             match e with
             | PymssqlError _ text => "Database error during registration: " +:+ text
             | _ => "An unexpected error occurred: " +:+ str_exn e
             end)]).
Proof.
  split.
  - intros Hok. register_cases drv cfg registration s; by try discriminate Hok.
  - intros e Hraised.
    register_cases drv cfg registration s; raised_call Hraised; by destruct e.
Qed.

Lemma register_logs_failure_witness :
  logged (respond (register_user InMemory.mem_driver InMemory.env_cfg
                     (mkRegistration "a@b.com" 3)) (fresh InMemory.commit_refused)).2
    = [(ERROR, "Database error during registration: Cannot commit transaction")]
  ∧ logged (respond (register_user InMemory.mem_driver InMemory.env_cfg
                       (mkRegistration "a@b.com" 3)) (fresh InMemory.healthy)).2 = [].
Proof.
  split.
  - apply (proj2 (register_logs_failure InMemory.mem_driver InMemory.env_cfg
                    (mkRegistration "a@b.com" 3) InMemory.commit_refused)
             (PymssqlError OperationalError "Cannot commit transaction")).
    exists (CCommit (Raise (PymssqlError OperationalError "Cannot commit transaction"))).
    split; [vm_compute; repeat constructor | reflexivity].
  - apply (proj1 (register_logs_failure InMemory.mem_driver InMemory.env_cfg
                    (mkRegistration "a@b.com" 3) InMemory.healthy)).
    reflexivity.
Defined.

(** X8. The same for [get_user_registrations], with its own prefix for a
    [pymssql.Error]. *)
Theorem lookup_logs_failure {server connection cursor : Type}
    (drv : driver server connection cursor) (cfg : config)
    (user_email : string) (s : server) :
  (status (get_registrations drv cfg user_email (fresh s)).1 = 200 →
   logged (get_registrations drv cfg user_email (fresh s)).2 = [])
  ∧ (∀ e : exn,
       raised_in e (calls (get_registrations drv cfg user_email (fresh s)).2) →
       logged (get_registrations drv cfg user_email (fresh s)).2
         = [(ERROR,
             match e with
             | PymssqlError _ text => "Database error fetching registrations: " +:+ text
             | _ => "An unexpected error occurred: " +:+ str_exn e
             end)]).
Proof.
  split.
  - intros Hok. get_cases drv cfg user_email s; by try discriminate Hok.
  - intros e Hraised.
    get_cases drv cfg user_email s; raised_call Hraised; by destruct e.
Qed.

Lemma lookup_logs_failure_witness :
  logged (get_registrations InMemory.mem_driver InMemory.env_cfg "a@b.com"
            (fresh InMemory.unreachable)).2
    = [(ERROR, "Database error fetching registrations: (20009, b'Unable to connect: db.example.net')")]
  ∧ logged (get_registrations InMemory.mem_driver InMemory.env_cfg "a@b.com"
              (fresh InMemory.healthy)).2 = [].
Proof.
  split.
  - apply (proj2 (lookup_logs_failure InMemory.mem_driver InMemory.env_cfg "a@b.com"
                    InMemory.unreachable)
             (PymssqlError OperationalError "(20009, b'Unable to connect: db.example.net')")).
    exists (CConnect InMemory.env_cfg true
              (Raise (PymssqlError OperationalError
                        "(20009, b'Unable to connect: db.example.net')"))).
    split; [vm_compute; repeat constructor | reflexivity].
  - apply (proj1 (lookup_logs_failure InMemory.mem_driver InMemory.env_cfg "a@b.com"
                    InMemory.healthy)).
    reflexivity.
Defined.

(** ** Rows *)

(** X9. When some fetched row has no [RegNumber] key, the comprehension
    raises [KeyError]; the second [except] clause answers with the generic
    500 and logs the missing key.  No partial list is returned. *)
Theorem lookup_missing_column {server connection cursor : Type}
    (drv : driver server connection cursor) (cfg : config) (user_email : string)
    (s : server) (conn : connection) (s1 : server) (cur : cursor) (s2 s3 s4 : server)
    (rows : list row) :
  connect drv cfg true s = (Ok conn, s1) →
  conn_cursor drv conn s1 = (Ok cur, s2) →
  execute drv cur "SELECT RegNumber FROM EYNATFORM_ALL WHERE email = %s"
    [SqlStr user_email] s2 = (Ok (), s3) →
  fetchall drv cur s3 = (Ok rows, s4) →
  Exists (λ r : row, r !! "RegNumber" = None) rows →
  (get_registrations drv cfg user_email (fresh s)).1
    = Response 500 (JObj [("detail", JStr "An unexpected server error occurred.")])
  ∧ logged (get_registrations drv cfg user_email (fresh s)).2
    = [(ERROR, "An unexpected error occurred: 'RegNumber'")].
Proof.
  intros Hconnect Hcursor Hexecute Hfetchall Hmissing.
  unfold get_registrations. rewrite respond_fst, respond_snd.
  unfold get_user_registrations, try_except, get_body, bind, with_, pymssql_connect,
    cursor_of, cursor_execute, cursor_fetchall, invoke, fresh; cbn.
  rewrite Hconnect; cbn. rewrite Hcursor; cbn. rewrite Hexecute; cbn.
  rewrite Hfetchall; cbn. rewrite for_each_getitem.
  assert (mapM (λ r : row, r !! "RegNumber") rows = None) as ->
    by (by apply mapM_None_2).
  done.
Qed.

(** The second of two rows lacks the column. *)
Lemma lookup_missing_column_witness :
  (get_registrations
     (InMemory.fixed_rows_driver [{[ "RegNumber" := SqlInt 1 ]}; {[ "Other" := SqlInt 7 ]}])
     InMemory.env_cfg "a@b.com" (fresh InMemory.healthy)).1
    = Response 500 (JObj [("detail", JStr "An unexpected server error occurred.")])
  ∧ logged (get_registrations
              (InMemory.fixed_rows_driver
                 [{[ "RegNumber" := SqlInt 1 ]}; {[ "Other" := SqlInt 7 ]}])
              InMemory.env_cfg "a@b.com" (fresh InMemory.healthy)).2
    = [(ERROR, "An unexpected error occurred: 'RegNumber'")].
Proof.
  eapply (lookup_missing_column
            (InMemory.fixed_rows_driver
               [{[ "RegNumber" := SqlInt 1 ]}; {[ "Other" := SqlInt 7 ]}])
            InMemory.env_cfg "a@b.com" InMemory.healthy); try reflexivity.
  apply Exists_cons_tl, Exists_cons_hd. reflexivity.
Defined.

(** X10. When every fetched row has a [RegNumber] that is NULL, an integer
    or a string, the registrations are those values in row order: a NULL
    comes out as [null] at the position of its row, it is neither dropped
    nor an error, and a string comes out as that string. *)
Theorem lookup_values_pass_through {server connection cursor : Type}
    (drv : driver server connection cursor) (cfg : config) (user_email : string)
    (s : server) (conn : connection) (s1 : server) (cur : cursor) (s2 s3 s4 : server)
    (rows : list row) (values : list sqlval) :
  connect drv cfg true s = (Ok conn, s1) →
  conn_cursor drv conn s1 = (Ok cur, s2) →
  execute drv cur "SELECT RegNumber FROM EYNATFORM_ALL WHERE email = %s"
    [SqlStr user_email] s2 = (Ok (), s3) →
  fetchall drv cur s3 = (Ok rows, s4) →
  Forall2 (λ (r : row) (v : sqlval), r !! "RegNumber" = Some v) rows values →
  (get_registrations drv cfg user_email (fresh s)).1
    = Response 200
        (JObj [("email", JStr user_email);
               ("registrations",
                JList ((λ v, match v with
                             | SqlNull => JNull
                             | SqlInt n => JInt n
                             | SqlStr t => JStr t
                             end) <$> values))]).
Proof.
  intros Hconnect Hcursor Hexecute Hfetchall Hrows.
  unfold get_registrations. rewrite respond_fst.
  unfold get_user_registrations, try_except, get_body, bind, with_, pymssql_connect,
    cursor_of, cursor_execute, cursor_fetchall, invoke, fresh; cbn.
  rewrite Hconnect; cbn. rewrite Hcursor; cbn. rewrite Hexecute; cbn.
  rewrite Hfetchall; cbn. rewrite for_each_getitem.
  assert (mapM (λ r : row, r !! "RegNumber") rows = Some values) as ->
    by (by apply mapM_Some_2).
  reflexivity.
Qed.

Lemma lookup_values_pass_through_witness :
  (get_registrations
     (InMemory.fixed_rows_driver
        [{[ "RegNumber" := SqlInt 4 ]}; {[ "RegNumber" := SqlNull ]};
         {[ "RegNumber" := SqlInt 2 ]}])
     InMemory.env_cfg "a@b.com" (fresh InMemory.healthy)).1
    = Response 200
        (JObj [("email", JStr "a@b.com"); ("registrations", JList [JInt 4; JNull; JInt 2])]).
Proof.
  eapply (lookup_values_pass_through
            (InMemory.fixed_rows_driver
               [{[ "RegNumber" := SqlInt 4 ]}; {[ "RegNumber" := SqlNull ]};
                {[ "RegNumber" := SqlInt 2 ]}])
            InMemory.env_cfg "a@b.com" InMemory.healthy _ _ _ _ _ _ _
            [SqlInt 4; SqlNull; SqlInt 2]); try reflexivity.
  repeat constructor.
Defined.

(** ** Choices are not range-checked *)

(** X11. A negative choice is registered like any other, and the message
    shows it with its sign: a minus followed by the decimal form of its
    absolute value. *)
Theorem register_negative_choice {server connection cursor : Type}
    (drv : driver server connection cursor) (cfg : config)
    (registration : Registration) (s : server) :
  choice registration < 0 →
  CCommit Returned ∈ calls (respond (register_user drv cfg registration) (fresh s)).2 →
  (respond (register_user drv cfg registration) (fresh s)).1
    = Response 200
        (JObj [("status", JStr "success");
               ("message",
                JStr ("Registered for option -" +:+ str_int (- choice registration)))]).
Proof.
  intros Hneg Hcommit.
  register_cases drv cfg registration s; try not_called Hcommit.
  unfold register_payload. destruct (choice registration) as [|p|p]; [lia|lia|].
  reflexivity.
Qed.

Lemma register_negative_choice_witness :
  (respond (register_user InMemory.mem_driver InMemory.env_cfg (mkRegistration "a@b.com" (-12)))
     (fresh InMemory.healthy)).1
    = Response 200
        (JObj [("status", JStr "success"); ("message", JStr "Registered for option -12")]).
Proof.
  apply (register_negative_choice InMemory.mem_driver InMemory.env_cfg
           (mkRegistration "a@b.com" (-12)) InMemory.healthy).
  - reflexivity.
  - vm_compute. repeat constructor.
Defined.

(** ** Validation and the handler together *)

(** X12. [POST /register] answers 422 exactly to the malformed bodies: a
    body that validates is handed to [register_user], which answers 200 or
    500 and never 422. *)
Theorem post_register_422_iff {server connection cursor : Type}
    (drv : driver server connection cursor) (cfg : config) (pydantic : validators)
    (body : json) (s : server) :
  status (post_register drv cfg pydantic body (fresh s)).1 = 422 ↔ malformed pydantic body.
Proof.
  rewrite malformed_iff. unfold post_register.
  destruct (validate_Registration pydantic body) as [registration|]; cbn; [|done].
  split; [|done]. intros Hstatus.
  register_cases drv cfg registration s; discriminate Hstatus.
Qed.

(** A choice given as a string, under the strict validators. *)
Lemma post_register_422_iff_witness :
  status (post_register InMemory.mem_driver InMemory.env_cfg InMemory.strict
            (JObj [("email", JStr "a@b.com"); ("choice", JStr "three")])
            (fresh InMemory.healthy)).1 = 422.
Proof.
  apply (proj2 (post_register_422_iff InMemory.mem_driver InMemory.env_cfg InMemory.strict
                  (JObj [("email", JStr "a@b.com"); ("choice", JStr "three")])
                  InMemory.healthy)).
  eapply choice_wrong_type; reflexivity.
Defined.
